(** * renderDiffRequest: argument lists for a revision-range diff

    Shallow embedding of the helper [renderDiffRequest] and of the two
    sentinel constants it is defined next to, followed by the properties
    of the argument list it returns.

    JavaScript strings are modelled by [string]; the strict equality
    [===] on two strings is [String.eqb]; an array of strings is a
    [list string]; the spread of arrays into an array literal is list
    concatenation. *)

From Stdlib Require Import String List Bool Arith Lia.
Import ListNotations.

Open Scope string_scope.
Open Scope list_scope.

(** ** The array and string primitives the function calls *)

Module Js.

(** [Array.prototype.join] on an array of strings: the empty array
    gives the empty string, a one-element array gives its element,
    and the separator is written only between two neighbours. *)
Fixpoint join (sep : string) (xs : list string) : string :=
  match xs with
  | [] => ""
  | x :: rest =>
      match rest with
      | [] => x
      | _ :: _ => x ++ sep ++ join sep rest
      end
  end.

(** [String.prototype.startsWith]: [startsWith s p] is [s.startsWith(p)]. *)
Definition startsWith (s p : string) : bool := String.prefix p s.

End Js.

(** ** Constants *)

Definition WORKING_TREE : string := "WORKING_TREE".
Definition STAGED_ONLY : string := "STAGED_ONLY".

(** ** The function

    [end_] stands for the source's [end], a reserved word here. *)

Definition renderDiffRequest (from to : string) : list string :=
  let start := [from] in
  let end_ := if (to =? WORKING_TREE) || (to =? STAGED_ONLY) then [] else [to] in
  let range := Js.join ".." (start ++ end_) in
  let cached := if to =? STAGED_ONLY then ["--cached"] else [] in
  range :: cached.

(** ** The same function with its array objects made explicit

    Every array literal of the source creates a new array object.  The
    store below holds the array objects created so far, an array value
    is a reference into it, and a spread reads the object a reference
    points to.  A read through a reference that points to no object is
    the one step that could go wrong. *)

Module Heap.

Definition ref : Type := nat.
Definition heap : Type := list (list string).

(** A computation reads and extends the store; [None] is a failure. *)
Definition M (A : Type) : Type := heap -> option (A * heap).

Definition ret {A : Type} (a : A) : M A := fun h => Some (a, h).

Definition bind {A B : Type} (m : M A) (k : A -> M B) : M B :=
  fun h =>
    match m h with
    | Some (a, h') => k a h'
    | None => None
    end.

Notation "'let*' x ':=' m 'in' k" := (bind m (fun x => k))
  (at level 10, x name, m at level 100, k at level 200).

(** An array literal: a new object after all the existing ones. *)
Definition new_array (elems : list string) : M ref :=
  fun h => Some (List.length h, h ++ [elems]).

(** The elements of the array a reference points to. *)
Definition deref (r : ref) (h : heap) : option (list string) :=
  nth_error h r.

(** Reading the elements of the array [r] points to, as a spread
    [...r] inside an array literal does; fails on a dangling reference. *)
Definition spread (r : ref) : M (list string) :=
  fun h =>
    match deref r h with
    | Some elems => Some (elems, h)
    | None => None
    end.

(** The array objects one invocation creates, in creation order:
    [start], [end], the literal that is joined, [cached] and the
    returned array. *)
Definition created (from to : string) : heap :=
  let end_ := if (to =? WORKING_TREE) || (to =? STAGED_ONLY) then [] else [to] in
  let cached := if to =? STAGED_ONLY then ["--cached"] else [] in
  [ [from]; end_; [from] ++ end_; cached;
    Js.join ".." ([from] ++ end_) :: cached ].

Definition renderDiffRequest (from to : string) : M ref :=
  let* start := new_array [from] in
  let* end_ :=
    (if (to =? WORKING_TREE) || (to =? STAGED_ONLY)
     then new_array []
     else new_array [to]) in
  let* s := spread start in
  let* e := spread end_ in
  let* both := new_array (s ++ e) in
  let* elems := spread both in           (* [join] reads its receiver *)
  let range := Js.join ".." elems in
  let* cached :=
    (if to =? STAGED_ONLY then new_array ["--cached"] else new_array []) in
  let* c := spread cached in
  new_array (range :: c).

(** What an invocation started in store [h] returns, read back from
    the store it leaves behind. *)
Definition result_of (from to : string) (h : heap) : option (list string) :=
  match renderDiffRequest from to h with
  | Some (r, h') => deref r h'
  | None => None
  end.

End Heap.

(** ** The behaviour written down in the specification analysis

    The analysis kept next to the tests defines the function by two
    conditionals on [to]: the range is [from] alone for a sentinel and
    [from ++ ".." ++ to] otherwise, and ["--cached"] follows the range
    exactly for [STAGED_ONLY].  This definition follows that text, not
    the function's body. *)

Definition renderDiffRequest_analysis (from to : string) : list string :=
  let range :=
    if (to =? WORKING_TREE) || (to =? STAGED_ONLY)
    then from
    else (from ++ ".." ++ to)%string in
  if to =? STAGED_ONLY then [range; "--cached"] else [range].

(** ** The test suites

    A test calls the function one or more times and states
    expectations on each result; it passes when every expectation of
    every call holds. *)

Module Jest.

Fixpoint array_eqb (xs ys : list string) : bool :=
  match xs, ys with
  | [], [] => true
  | x :: xs', y :: ys' => (x =? y) && array_eqb xs' ys'
  | _, _ => false
  end.

Inductive matcher : Type :=
| toEqual (expected : list string)   (* expect(result).toEqual(expected) *)
| toHaveLength (n : nat)             (* expect(result).toHaveLength(n), expect(result.length).toBe(n) *)
| lengthGreaterThan (n : nat)        (* expect(result.length).toBeGreaterThan(n) *)
| lengthLessThanOrEqual (n : nat)    (* expect(result.length).toBeLessThanOrEqual(n) *)
| isArray                            (* expect(Array.isArray(result)).toBe(true) *)
| elemDefined (i : nat)              (* expect(result[i]).toBeDefined() *)
| elemIsString (i : nat)             (* expect(typeof result[i]).toBe("string") *)
| elemToBe (i : nat) (s : string).   (* expect(result[i]).toBe(s) *)

(** An index past the end reads [undefined], which is not defined, is
    not a string and is equal to no string. *)
Definition holds (m : matcher) (result : list string) : bool :=
  match m with
  | toEqual expected => array_eqb result expected
  | toHaveLength n => List.length result =? n
  | lengthGreaterThan n => n <? List.length result
  | lengthLessThanOrEqual n => List.length result <=? n
  | isArray => true
  | elemDefined i | elemIsString i =>
      match nth_error result i with Some _ => true | None => false end
  | elemToBe i s =>
      match nth_error result i with Some x => (x =? s)%string | None => false end
  end%nat.

Record call : Type := Call
  { call_from : string; call_to : string; expects : list matcher }.

Record test : Type := Test { title : string; calls : list call }.

Definition call_passes (c : call) : bool :=
  forallb (fun m => holds m (renderDiffRequest (call_from c) (call_to c)))
          (expects c).

Definition test_passes (t : test) : bool := forallb call_passes (calls t).

Definition targets_sentinel (c : call) : bool :=
  (call_to c =? WORKING_TREE) || (call_to c =? STAGED_ONLY).

(** The suite that follows the function in the first unnamed file. *)
Definition suite_part_000 : list test :=
  [ Test "should create range between two regular commits"
      [Call "abc123" "def456" [toEqual ["abc123..def456"]]];
    Test "should create range with HEAD reference"
      [Call "HEAD~1" "HEAD" [toEqual ["HEAD~1..HEAD"]]];
    Test "should create range with branch references"
      [Call "origin/main" "feature-branch" [toEqual ["origin/main..feature-branch"]]];
    Test "should omit end commit and exclude --cached flag"
      [Call "abc123" WORKING_TREE [toEqual ["abc123.."]]];
    Test "should work with symbolic refs"
      [Call "HEAD" WORKING_TREE [toEqual ["HEAD.."]]];
    Test "should omit end commit and include --cached flag"
      [Call "abc123" STAGED_ONLY [toEqual ["abc123.."; "--cached"]]];
    Test "should work with symbolic refs"
      [Call "HEAD" STAGED_ONLY [toEqual ["HEAD.."; "--cached"]]];
    Test "should handle empty string as from parameter"
      [Call "" "abc123" [toEqual ["..abc123"]]];
    Test "should handle empty string as to parameter"
      [Call "abc123" "" [toEqual ["abc123.."]]];
    Test "should handle empty strings for both parameters"
      [Call "" "" [toEqual [".."]]];
    Test "should include --cached flag when from is empty and to is STAGED_ONLY"
      [Call "" STAGED_ONLY [toEqual [".."; "--cached"]]];
    Test "should verify all three branches of conditional logic"
      [Call "abc123" WORKING_TREE [toEqual ["abc123.."]; toHaveLength 1];
       Call "abc123" STAGED_ONLY [toEqual ["abc123.."; "--cached"]; toHaveLength 2];
       Call "abc123" "def456" [toEqual ["abc123..def456"]; toHaveLength 1]] ].

(** The examples the two invariant tests of tests.ts loop over. *)
Definition examples : list (string * string) :=
  [("abc", "def"); ("main", WORKING_TREE); ("HEAD", STAGED_ONLY)].

Definition for_examples (ms : list matcher) : list call :=
  map (fun ft => Call (fst ft) (snd ft) ms) examples.

(** The suite of tests.ts. *)
Definition suite_tests_ts : list test :=
  [ Test "comparing two commit hashes"
      [Call "abc123" "def456" [toEqual ["abc123..def456"]]];
    Test "comparing two branch names"
      [Call "main" "feature-branch" [toEqual ["main..feature-branch"]]];
    Test "comparing commit hash to branch name"
      [Call "abc123" "main" [toEqual ["abc123..main"]]];
    Test "comparing with HEAD"
      [Call "HEAD~1" "HEAD" [toEqual ["HEAD~1..HEAD"]]];
    Test "comparing commit to working tree"
      [Call "abc123" WORKING_TREE [toEqual ["abc123"]]];
    Test "comparing HEAD to working tree"
      [Call "HEAD" WORKING_TREE [toEqual ["HEAD"]]];
    Test "comparing branch to working tree"
      [Call "main" WORKING_TREE [toEqual ["main"]]];
    Test "comparing commit to staged changes"
      [Call "abc123" STAGED_ONLY [toEqual ["abc123"; "--cached"]]];
    Test "comparing HEAD to staged changes"
      [Call "HEAD" STAGED_ONLY [toEqual ["HEAD"; "--cached"]]];
    Test "comparing branch to staged changes"
      [Call "main" STAGED_ONLY [toEqual ["main"; "--cached"]]];
    Test "result is always a non-empty array with at least one string element"
      (for_examples [isArray; lengthGreaterThan 0; elemDefined 0; elemIsString 0]);
    Test "result has at most 2 elements"
      (for_examples [lengthLessThanOrEqual 2]);
    Test "regular diff returns single element with two-dot notation"
      [Call "abc123" "def456" [toHaveLength 1; elemToBe 0 "abc123..def456"]];
    Test "working tree diff returns single element"
      [Call "abc123" WORKING_TREE [toHaveLength 1; elemToBe 0 "abc123"]];
    Test "staged diff returns two elements"
      [Call "abc123" STAGED_ONLY
         [toHaveLength 2; elemToBe 0 "abc123"; elemToBe 1 "--cached"]] ].

End Jest.

(** * Properties *)

(** ** Scenarios *)

Example scenario_commits :
  renderDiffRequest "abc123" "def456" = ["abc123..def456"].
Proof. reflexivity. Qed.

Example scenario_head :
  renderDiffRequest "HEAD~1" "HEAD" = ["HEAD~1..HEAD"].
Proof. reflexivity. Qed.

Example scenario_empty_to :
  renderDiffRequest "abc123" "" = ["abc123.."].
Proof. reflexivity. Qed.

Example scenario_empty_from_staged :
  renderDiffRequest "" STAGED_ONLY = [""; "--cached"].
Proof. reflexivity. Qed.

Example heap_scenario_staged :
  Heap.result_of "abc123" STAGED_ONLY [["x"]; []] = Some ["abc123"; "--cached"].
Proof. reflexivity. Qed.

(** ** Strings and [join] *)

Lemma append_empty_r (s : string) : (s ++ "")%string = s.
Proof.
  induction s as [| c s IH]; simpl.
  - reflexivity.
  - now rewrite IH.
Qed.

Lemma prefix_refl (s : string) : String.prefix s s = true.
Proof.
  induction s as [| c s IH]; simpl.
  - reflexivity.
  - destruct (Ascii.ascii_dec c c) as [_ | ne]; [exact IH | now destruct ne].
Qed.

Lemma prefix_append (s t : string) : String.prefix s (s ++ t)%string = true.
Proof.
  induction s as [| c s IH]; simpl.
  - now destruct t.
  - destruct (Ascii.ascii_dec c c) as [_ | ne]; [exact IH | now destruct ne].
Qed.

Lemma append_length (s t : string) :
  String.length (s ++ t)%string = String.length s + String.length t.
Proof.
  induction s as [| c s IH]; simpl; [reflexivity | now rewrite IH].
Qed.

(** A string is never equal to itself followed by a non-empty string. *)
Lemma append_nonempty_neq (s t : string) : t <> "" -> s <> (s ++ t)%string.
Proof.
  intros Ht E.
  apply (f_equal String.length) in E.
  rewrite append_length in E.
  destruct t as [| c t]; [now apply Ht | simpl in E; lia].
Qed.

(** [join] is the standard library's [String.concat]. *)
Lemma join_concat (sep : string) (xs : list string) :
  Js.join sep xs = String.concat sep xs.
Proof.
  induction xs as [| x rest IH]; simpl.
  - reflexivity.
  - destruct rest as [| y rest']; [reflexivity | now rewrite <- IH].
Qed.

Lemma join_nil (sep : string) : Js.join sep [] = "".
Proof. reflexivity. Qed.

Lemma join_one (sep x : string) : Js.join sep [x] = x.
Proof. reflexivity. Qed.

Lemma join_cons (sep x y : string) (rest : list string) :
  Js.join sep (x :: y :: rest) = (x ++ sep ++ Js.join sep (y :: rest))%string.
Proof. reflexivity. Qed.

(** The first joined element is always written first, unchanged. *)
Lemma join_head_prefix (sep x : string) (rest : list string) :
  String.prefix x (Js.join sep (x :: rest)) = true.
Proof.
  destruct rest as [| y rest].
  - apply prefix_refl.
  - rewrite join_cons. apply prefix_append.
Qed.

(** ** The three cases on [to] *)

Lemma sentinels_differ : WORKING_TREE <> STAGED_ONLY.
Proof. discriminate. Qed.

(** Splits on the two comparisons the function makes, in the order it
    makes them, and evaluates each branch. *)
Ltac split_on_target to :=
  unfold renderDiffRequest;
  destruct (String.eqb_spec to WORKING_TREE) as [? | ?];
  [ subst to; simpl
  | destruct (String.eqb_spec to STAGED_ONLY) as [? | ?];
    [ subst to; simpl | simpl ] ].

(** ** The value returned in each case *)

(** C1, as the specification states it, fails: with [to] the
    working-tree sentinel the array that is joined has the single
    element [from], so no separator is written.  At [from = "abc123"]
    the function returns [["abc123"]], not [["abc123.."]]. *)
Lemma working_tree_range_has_no_separator :
  renderDiffRequest "abc123" WORKING_TREE = ["abc123"] /\
  renderDiffRequest "abc123" WORKING_TREE <> [("abc123" ++ "..")%string].
Proof.
  split; [reflexivity | discriminate].
Qed.

(** C1 (amended): for every string [from], [renderDiffRequest from
    WORKING_TREE] is the single-element list [[from]]: [from] alone,
    without the [".."] separator and without the ["--cached"] flag. *)
Theorem renderDiffRequest_working_tree (from : string) :
  renderDiffRequest from WORKING_TREE = [from].
Proof.
  unfold renderDiffRequest.
  rewrite String.eqb_refl. simpl.
  apply f_equal2; reflexivity.
Qed.

(** C2, as the specification states it, fails for the same reason as
    C1: at [from = "abc123"] the function returns
    [["abc123"; "--cached"]], not [["abc123.."; "--cached"]]. *)
Lemma staged_only_range_has_no_separator :
  renderDiffRequest "abc123" STAGED_ONLY = ["abc123"; "--cached"] /\
  renderDiffRequest "abc123" STAGED_ONLY <> [("abc123" ++ "..")%string; "--cached"].
Proof.
  split; [reflexivity | discriminate].
Qed.

(** C2 (amended): for every string [from], [renderDiffRequest from
    STAGED_ONLY] is the two-element list [[from; "--cached"]]: [from]
    alone, without the [".."] separator, then the literal ["--cached"]. *)
Theorem renderDiffRequest_staged_only (from : string) :
  renderDiffRequest from STAGED_ONLY = [from; "--cached"].
Proof.
  unfold renderDiffRequest.
  rewrite String.eqb_refl, orb_true_r. simpl.
  apply f_equal2; reflexivity.
Qed.

(** C3: for all strings [from] and [to] with [to] neither
    [WORKING_TREE] nor [STAGED_ONLY], [renderDiffRequest from to] is the
    single-element list [[from ++ ".." ++ to]], with no flag appended. *)
Theorem renderDiffRequest_revision (from to : string) :
  to <> WORKING_TREE ->
  to <> STAGED_ONLY ->
  renderDiffRequest from to = [(from ++ ".." ++ to)%string].
Proof.
  intros not_wt not_so.
  split_on_target to.
  - now destruct not_wt.
  - now destruct not_so.
  - reflexivity.
Qed.

Lemma renderDiffRequest_revision_witness :
  renderDiffRequest "origin/main" "feature-branch"
  = [("origin/main" ++ ".." ++ "feature-branch")%string].
Proof.
  apply (renderDiffRequest_revision "origin/main" "feature-branch").
  - apply String.eqb_neq. reflexivity.
  - apply String.eqb_neq. reflexivity.
Defined.

(** C4: the returned list has length 1 or 2; its length is 2 exactly
    when [to] equals [STAGED_ONLY]; and whenever the length is 2 the
    second element is the literal ["--cached"]. *)
Theorem renderDiffRequest_length (from to : string) :
  (List.length (renderDiffRequest from to) = 1 \/
   List.length (renderDiffRequest from to) = 2) /\
  (List.length (renderDiffRequest from to) = 2 <-> to = STAGED_ONLY) /\
  (List.length (renderDiffRequest from to) = 2 ->
   nth_error (renderDiffRequest from to) 1 = Some "--cached").
Proof.
  split_on_target to.
  - repeat split; auto; discriminate.
  - repeat split; auto.
  - repeat split; auto; try discriminate. intros is_so. contradiction.
Qed.

(** ** The role of [from] *)

Example from_may_be_a_sentinel :
  renderDiffRequest STAGED_ONLY "HEAD" = ["STAGED_ONLY..HEAD"] /\
  renderDiffRequest WORKING_TREE WORKING_TREE = ["WORKING_TREE"].
Proof. split; reflexivity. Qed.

Example from_is_not_trimmed :
  renderDiffRequest "  a b " "c" = ["  a b ..c"].
Proof. reflexivity. Qed.

Example near_sentinels_are_revisions :
  renderDiffRequest "a" "working_tree" = ["a..working_tree"] /\
  renderDiffRequest "a" " STAGED_ONLY" = ["a.. STAGED_ONLY"].
Proof. split; reflexivity. Qed.

(** C5: the case is chosen by equality of [to] with the two sentinels
    and by nothing else.  For every [to] there are a tail and a list of
    flags, fixed before [from] is known, such that for every [from]
    (a sentinel literal included) the result is [from] itself followed
    by that tail, then those flags.  The tail is empty when [to] is a
    sentinel and is [".."] followed by [to] otherwise; the flags are
    [["--cached"]] when [to] is [STAGED_ONLY] and empty otherwise. *)
Theorem renderDiffRequest_from_verbatim (to : string) :
  exists (tail : string) (flags : list string),
    (forall from : string,
        renderDiffRequest from to = (from ++ tail)%string :: flags) /\
    (to = WORKING_TREE \/ to = STAGED_ONLY -> tail = "") /\
    (to <> WORKING_TREE -> to <> STAGED_ONLY -> tail = (".." ++ to)%string) /\
    (to = STAGED_ONLY -> flags = ["--cached"]) /\
    (to <> STAGED_ONLY -> flags = []).
Proof.
  destruct (String.eqb_spec to WORKING_TREE) as [is_wt | not_wt].
  - exists "", []. subst to. repeat split; auto.
    + intros from. now rewrite append_empty_r.
    + intros F. now destruct F.
    + intros E. now apply sentinels_differ in E.
  - destruct (String.eqb_spec to STAGED_ONLY) as [is_so | not_so].
    + exists "", ["--cached"]. subst to. repeat split; auto.
      * intros from. now rewrite append_empty_r.
      * intros _ F. now destruct F.
      * intros F. now destruct F.
    + exists (".." ++ to)%string, []. repeat split; auto.
      * intros from. split_on_target to; try contradiction. reflexivity.
      * intros [E | E]; contradiction.
      * intros E. contradiction.
Qed.

(** C6: for all strings [from] and [to], the first element of
    [renderDiffRequest from to] starts with [from]. *)
Theorem renderDiffRequest_first_starts_with_from (from to : string) :
  exists (first : string) (rest : list string),
    renderDiffRequest from to = first :: rest /\
    Js.startsWith first from = true.
Proof.
  unfold renderDiffRequest, Js.startsWith.
  eexists; eexists; split; [reflexivity |].
  simpl app. apply join_head_prefix.
Qed.

(** C8: with both arguments empty the result is [[".."]]; the empty
    string is neither sentinel, so this is the ordinary-revision case. *)
Theorem renderDiffRequest_empty_empty :
  renderDiffRequest "" "" = [".."] /\
  "" <> WORKING_TREE /\ "" <> STAGED_ONLY /\
  renderDiffRequest "" "" = [("" ++ ".." ++ "")%string].
Proof.
  split; [reflexivity |].
  split; [discriminate |].
  split; [discriminate | reflexivity].
Qed.

(** C10: for every string [from], the result for [STAGED_ONLY] is the
    result for [WORKING_TREE] with the single element ["--cached"]
    appended; the two results have the same first element. *)
Theorem renderDiffRequest_staged_extends_working_tree (from : string) :
  renderDiffRequest from STAGED_ONLY
  = renderDiffRequest from WORKING_TREE ++ ["--cached"] /\
  hd_error (renderDiffRequest from STAGED_ONLY)
  = hd_error (renderDiffRequest from WORKING_TREE).
Proof.
  split; reflexivity.
Qed.

(** ** Array objects: every invocation succeeds and touches nothing *)

Section HeapFacts.

Variables from to : string.

Lemma deref_new (h : Heap.heap) (elems : list string) :
  Heap.deref (List.length h) (h ++ [elems]) = Some elems.
Proof.
  unfold Heap.deref. rewrite nth_error_app2 by lia.
  now rewrite Nat.sub_diag.
Qed.

(** Objects are never moved or overwritten by later allocations. *)
Lemma deref_extend (h later : Heap.heap) (r : Heap.ref) (elems : list string) :
  Heap.deref r h = Some elems -> Heap.deref r (h ++ later) = Some elems.
Proof.
  unfold Heap.deref. intros live.
  rewrite nth_error_app1; [exact live |].
  apply nth_error_Some. now rewrite live.
Qed.

Lemma bind_new_array {B : Type} (elems : list string)
      (k : Heap.ref -> Heap.M B) (h : Heap.heap) :
  Heap.bind (Heap.new_array elems) k h = k (List.length h) (h ++ [elems]).
Proof. reflexivity. Qed.

Lemma bind_spread {B : Type} (r : Heap.ref) (elems : list string)
      (k : list string -> Heap.M B) (h : Heap.heap) :
  Heap.deref r h = Some elems -> Heap.bind (Heap.spread r) k h = k elems h.
Proof.
  intros live. unfold Heap.bind, Heap.spread. now rewrite live.
Qed.

Lemma created_last :
  nth_error (Heap.created from to) 4 = Some (renderDiffRequest from to).
Proof. reflexivity. Qed.

(** One invocation, step by step: five allocations after the objects
    that exist already, the last of which is the returned array. *)
Lemma run_renderDiffRequest (h : Heap.heap) :
  Heap.renderDiffRequest from to h
  = Some (List.length h + 4, h ++ Heap.created from to).
Proof.
  unfold Heap.renderDiffRequest, Heap.created.
  set (end_ := if (to =? WORKING_TREE) || (to =? STAGED_ONLY) then [] else [to]).
  set (cached := if to =? STAGED_ONLY then ["--cached"] else []).
  rewrite bind_new_array.
  replace (Heap.bind (if (to =? WORKING_TREE) || (to =? STAGED_ONLY)
                      then Heap.new_array [] else Heap.new_array [to]))
    with (Heap.bind (B := Heap.ref) (Heap.new_array end_))
    by (subst end_; now destruct ((to =? WORKING_TREE) || (to =? STAGED_ONLY))).
  rewrite bind_new_array.
  rewrite (bind_spread _ [from])
    by (apply (deref_extend _ [_]), deref_new).
  rewrite (bind_spread _ end_) by apply deref_new.
  rewrite bind_new_array.
  rewrite (bind_spread _ ([from] ++ end_)) by apply deref_new.
  replace (Heap.bind (if to =? STAGED_ONLY
                      then Heap.new_array ["--cached"] else Heap.new_array []))
    with (Heap.bind (B := Heap.ref) (Heap.new_array cached))
    by (subst cached; now destruct (to =? STAGED_ONLY)).
  rewrite bind_new_array.
  rewrite (bind_spread _ cached) by apply deref_new.
  unfold Heap.new_array.
  repeat rewrite length_app. simpl List.length.
  repeat rewrite <- app_assoc. simpl app.
  do 2 f_equal. lia.
Qed.

Lemma deref_returned (h : Heap.heap) :
  Heap.deref (List.length h + 4) (h ++ Heap.created from to)
  = Some (renderDiffRequest from to).
Proof.
  unfold Heap.deref. rewrite nth_error_app2 by lia.
  replace (List.length h + 4 - List.length h) with 4 by lia.
  apply created_last.
Qed.

Lemma result_of_spec (h : Heap.heap) :
  Heap.result_of from to h = Some (renderDiffRequest from to).
Proof.
  unfold Heap.result_of. rewrite run_renderDiffRequest. apply deref_returned.
Qed.

End HeapFacts.

(** C7: the function is total.  For all strings [from] and [to] the
    pure function returns a list with a first element, and the
    invocation on array objects, started in any store, returns a
    reference (never a failure) to an array holding exactly that
    list. *)
Theorem renderDiffRequest_total (from to : string) :
  (exists (range : string) (cached : list string),
      renderDiffRequest from to = range :: cached) /\
  (forall h : Heap.heap,
      exists (r : Heap.ref) (h' : Heap.heap),
        Heap.renderDiffRequest from to h = Some (r, h') /\
        Heap.deref r h' = Some (renderDiffRequest from to)).
Proof.
  split.
  - unfold renderDiffRequest. eexists; eexists; reflexivity.
  - intros h.
    exists (List.length h + 4), (h ++ Heap.created from to).
    split; [apply run_renderDiffRequest | apply deref_returned].
Qed.

(** C9: the result is determined by the two arguments alone.  Started
    in any two stores, two invocations with the same [from] and [to]
    return arrays with the same elements; when the second invocation
    follows the first, the two returned arrays are distinct objects
    with the same elements; and an invocation leaves every array that
    existed before it unchanged. *)
Theorem renderDiffRequest_deterministic (from to : string) :
  (forall h1 h2 : Heap.heap,
      Heap.result_of from to h1 = Heap.result_of from to h2) /\
  (forall h : Heap.heap,
      exists (r1 r2 : Heap.ref) (h1 h2 : Heap.heap),
        Heap.renderDiffRequest from to h = Some (r1, h1) /\
        Heap.renderDiffRequest from to h1 = Some (r2, h2) /\
        r1 <> r2 /\
        Heap.deref r1 h2 = Some (renderDiffRequest from to) /\
        Heap.deref r2 h2 = Some (renderDiffRequest from to)) /\
  (forall (h h' : Heap.heap) (r r0 : Heap.ref) (elems : list string),
      Heap.renderDiffRequest from to h = Some (r, h') ->
      Heap.deref r0 h = Some elems ->
      Heap.deref r0 h' = Some elems).
Proof.
  split; [| split].
  - intros h1 h2. now rewrite !result_of_spec.
  - intros h.
    set (h1 := h ++ Heap.created from to).
    exists (List.length h + 4), (List.length h1 + 4),
           h1, (h1 ++ Heap.created from to).
    split; [apply run_renderDiffRequest |].
    split; [apply run_renderDiffRequest |].
    split.
    + subst h1. rewrite length_app. simpl. lia.
    + split; [| apply deref_returned].
      apply deref_extend. apply deref_returned.
  - intros h h' r r0 elems run live.
    rewrite run_renderDiffRequest in run.
    injection run as _ <-.
    now apply deref_extend.
Qed.

(** * Further properties of the function *)

(** ** Cancellation for string concatenation *)

Lemma append_cancel_l (s a b : string) :
  (s ++ a)%string = (s ++ b)%string -> a = b.
Proof.
  induction s as [| c s IH]; simpl; intros E.
  - exact E.
  - injection E as E. now apply IH.
Qed.

Lemma append_cancel_r (a b t : string) :
  (a ++ t)%string = (b ++ t)%string -> a = b.
Proof.
  revert b. induction a as [| c a IH]; intros b E.
  - destruct b as [| d b]; [reflexivity |].
    apply (f_equal String.length) in E.
    simpl in E. rewrite append_length in E. lia.
  - destruct b as [| d b].
    + apply (f_equal String.length) in E.
      simpl in E. rewrite append_length in E. lia.
    + simpl in E. injection E as -> E. f_equal. now apply IH.
Qed.

Lemma append_assoc (a b c : string) :
  ((a ++ b) ++ c)%string = (a ++ b ++ c)%string.
Proof.
  induction a as [| x a IH]; simpl; [reflexivity | now rewrite IH].
Qed.

Lemma append_eq_empty (a b : string) :
  (a ++ b)%string = "" -> a = "" /\ b = "".
Proof.
  destruct a as [| c a]; simpl; intros E; [now split | discriminate].
Qed.

(** The function in closed form, one equation per case on [to]. *)
Lemma renderDiffRequest_cases (from to : string) :
  (to = WORKING_TREE /\ renderDiffRequest from to = [from]) \/
  (to = STAGED_ONLY /\ renderDiffRequest from to = [from; "--cached"]) \/
  (to <> WORKING_TREE /\ to <> STAGED_ONLY /\
   renderDiffRequest from to = [(from ++ ".." ++ to)%string]).
Proof.
  split_on_target to; auto.
Qed.

Lemma renderDiffRequest_sentinel (from : string) :
  renderDiffRequest from WORKING_TREE = [from] /\
  renderDiffRequest from STAGED_ONLY = [from; "--cached"].
Proof.
  split; reflexivity.
Qed.

(** ** The analysis and the function agree *)

(** X1: on every pair of strings the function returns what the
    behavioural definition of the specification analysis returns. *)
Theorem renderDiffRequest_meets_analysis (from to : string) :
  renderDiffRequest from to = renderDiffRequest_analysis from to.
Proof.
  unfold renderDiffRequest_analysis.
  destruct (renderDiffRequest_cases from to)
    as [[-> ->] | [[-> ->] | (not_wt & not_so & ->)]].
  - reflexivity.
  - reflexivity.
  - apply String.eqb_neq in not_wt, not_so.
    now rewrite not_wt, not_so.
Qed.

(** ** What the result determines *)

(** X2: with [from] fixed, different targets give different results:
    the result determines [to]. *)
Theorem renderDiffRequest_injective_in_to (from to1 to2 : string) :
  renderDiffRequest from to1 = renderDiffRequest from to2 -> to1 = to2.
Proof.
  destruct (renderDiffRequest_cases from to1)
    as [[-> ->] | [[-> ->] | (not_wt1 & not_so1 & ->)]];
  destruct (renderDiffRequest_cases from to2)
    as [[-> ->] | [[-> ->] | (not_wt2 & not_so2 & ->)]];
  intros E; try reflexivity; try discriminate E.
  - injection E as E. now apply append_nonempty_neq in E.
  - injection E as E. symmetry in E. now apply append_nonempty_neq in E.
  - injection E as E.
    apply append_cancel_l in E. now apply (append_cancel_l "..") in E.
Qed.

Lemma renderDiffRequest_injective_in_to_witness :
  "HEAD" = "HEAD".
Proof.
  apply (renderDiffRequest_injective_in_to "abc123" "HEAD" "HEAD").
  reflexivity.
Defined.

(** X3: with [to] fixed, different [from] give different results: the
    result determines [from]. *)
Theorem renderDiffRequest_injective_in_from (from1 from2 to : string) :
  renderDiffRequest from1 to = renderDiffRequest from2 to -> from1 = from2.
Proof.
  split_on_target to; intros E; injection E as E.
  - exact E.
  - exact E.
  - now apply append_cancel_r in E.
Qed.

Lemma renderDiffRequest_injective_in_from_witness :
  "abc123" = "abc123".
Proof.
  apply (renderDiffRequest_injective_in_from "abc123" "abc123" STAGED_ONLY).
  reflexivity.
Defined.

(** X4: the result does not determine the pair.  For [to] not a
    sentinel, the request from [from] to [to] and the working-tree
    request from the text [from ++ ".." ++ to] are different requests
    with the same result. *)
Theorem renderDiffRequest_collision (from to : string) :
  to <> WORKING_TREE ->
  to <> STAGED_ONLY ->
  renderDiffRequest (from ++ ".." ++ to) WORKING_TREE = renderDiffRequest from to /\
  ((from ++ ".." ++ to)%string, WORKING_TREE) <> (from, to).
Proof.
  intros not_wt not_so. split.
  - destruct (renderDiffRequest_cases from to)
      as [[is_wt _] | [[is_so _] | (_ & _ & ->)]]; try contradiction.
    reflexivity.
  - intros E. injection E as _ E. now apply not_wt.
Qed.

Lemma renderDiffRequest_collision_witness :
  renderDiffRequest ("a" ++ ".." ++ "b") WORKING_TREE = renderDiffRequest "a" "b" /\
  (("a" ++ ".." ++ "b")%string, WORKING_TREE) <> ("a", "b").
Proof.
  apply (renderDiffRequest_collision "a" "b").
  - apply String.eqb_neq. reflexivity.
  - apply String.eqb_neq. reflexivity.
Defined.

(** ** The range element *)

(** X5: the first element is exactly [from] if and only if [to] is one
    of the two sentinels. *)
Theorem renderDiffRequest_range_is_from_iff_sentinel (from to : string) :
  nth_error (renderDiffRequest from to) 0 = Some from
  <-> to = WORKING_TREE \/ to = STAGED_ONLY.
Proof.
  destruct (renderDiffRequest_cases from to)
    as [[-> ->] | [[-> ->] | (not_wt & not_so & ->)]]; simpl.
  - split; auto.
  - split; auto.
  - split.
    + intros E. injection E as E. symmetry in E.
      now apply append_nonempty_neq in E.
    + intros [E | E]; contradiction.
Qed.

(** X6: the first element is the empty string if and only if [from]
    is empty and [to] is one of the two sentinels. *)
Theorem renderDiffRequest_range_empty_iff (from to : string) :
  nth_error (renderDiffRequest from to) 0 = Some ""
  <-> from = "" /\ (to = WORKING_TREE \/ to = STAGED_ONLY).
Proof.
  destruct (renderDiffRequest_cases from to)
    as [[-> ->] | [[-> ->] | (not_wt & not_so & ->)]]; simpl.
  - split; [intros E; injection E as ->; auto | now intros [-> _]].
  - split; [intros E; injection E as ->; auto | now intros [-> _]].
  - split.
    + intros E. injection E as E.
      apply append_eq_empty in E. destruct E as [_ E]. discriminate E.
    + intros [_ [E | E]]; contradiction.
Qed.

(** ** Where the flag token can appear *)

(** No range of the form [from ++ ".." ++ to] is the flag token. *)
Lemma range_is_not_flag (from to : string) :
  (from ++ ".." ++ to)%string <> "--cached".
Proof.
  intros E.
  repeat (destruct from as [| ? from]; simpl in E;
          [discriminate E | injection E as _ E]).
  destruct from; discriminate E.
Qed.

(** X7: ["--cached"] is an element of the result if and only if [to]
    is [STAGED_ONLY], or [to] is [WORKING_TREE] and [from] is itself
    the text ["--cached"]. *)
Theorem renderDiffRequest_flag_iff (from to : string) :
  In "--cached" (renderDiffRequest from to)
  <-> to = STAGED_ONLY \/ (from = "--cached" /\ to = WORKING_TREE).
Proof.
  destruct (renderDiffRequest_cases from to)
    as [[-> ->] | [[-> ->] | (not_wt & not_so & ->)]]; simpl.
  - split.
    + intros [E | []]. now right.
    + intros [E | [E _]]; [now apply sentinels_differ in E | now left].
  - split; auto.
  - split.
    + intros [E | []]. now apply range_is_not_flag in E.
    + intros [E | [_ E]]; contradiction.
Qed.

(** ** Joining a concatenation *)

(** X8: joining the concatenation of two non-empty arrays is joining
    each and writing one separator between the two strings. *)
Theorem join_app (sep : string) (xs ys : list string) :
  xs <> [] ->
  ys <> [] ->
  Js.join sep (xs ++ ys) = (Js.join sep xs ++ sep ++ Js.join sep ys)%string.
Proof.
  intros xs_ne ys_ne.
  induction xs as [| x rest IH]; [now destruct xs_ne |].
  destruct rest as [| y rest].
  - destruct ys as [| y ys]; [now destruct ys_ne | reflexivity].
  - change ((x :: y :: rest) ++ ys) with (x :: y :: (rest ++ ys)).
    rewrite !join_cons.
    change (y :: rest ++ ys) with ((y :: rest) ++ ys).
    rewrite IH by discriminate.
    now rewrite !append_assoc.
Qed.

Lemma join_app_witness :
  Js.join ".." (["a"; "b"] ++ ["c"])
  = (Js.join ".." ["a"; "b"] ++ ".." ++ Js.join ".." ["c"])%string.
Proof.
  apply (join_app ".." ["a"; "b"] ["c"]); discriminate.
Defined.

(** ** Allocation *)

(** X9: an invocation creates exactly five array objects, and the
    array it returns is the last of them: a new object, not one that
    existed in the store the invocation started in. *)
Theorem renderDiffRequest_returns_fresh_array
        (from to : string) (h h' : Heap.heap) (r : Heap.ref) :
  Heap.renderDiffRequest from to h = Some (r, h') ->
  Heap.deref r h = None /\
  List.length h' = List.length h + 5 /\
  r = List.length h' - 1.
Proof.
  rewrite run_renderDiffRequest. intros run.
  injection run as <- <-.
  rewrite length_app. simpl List.length.
  split; [| split; lia].
  unfold Heap.deref. apply nth_error_None. lia.
Qed.

Lemma renderDiffRequest_returns_fresh_array_witness :
  Heap.deref 5 [["x"]] = None /\
  List.length ([["x"]] ++ Heap.created "abc123" "def456") = List.length [["x"]] + 5 /\
  5 = List.length ([["x"]] ++ Heap.created "abc123" "def456") - 1.
Proof.
  apply (renderDiffRequest_returns_fresh_array "abc123" "def456").
  reflexivity.
Defined.

(** ** The two test suites against the function *)

Lemma array_eqb_eq (xs ys : list string) :
  Jest.array_eqb xs ys = true <-> xs = ys.
Proof.
  revert ys. induction xs as [| x xs IH]; intros [| y ys]; simpl;
    try (split; [discriminate | discriminate]).
  - split; reflexivity.
  - rewrite andb_true_iff, String.eqb_eq, IH.
    split; [intros [-> ->]; reflexivity | intros E; injection E; auto].
Qed.

(** X10: every test of the suite of tests.ts passes. *)
Theorem suite_tests_ts_passes :
  Forall (fun t => Jest.test_passes t = true) Jest.suite_tests_ts /\
  List.length Jest.suite_tests_ts = 15.
Proof.
  split; [| reflexivity].
  repeat constructor.
Qed.

(** X11: a test of the suite in the first unnamed file passes exactly
    when none of its calls has a sentinel as [to]; six of its twelve
    tests pass. *)
Theorem suite_part_000_passes_off_sentinels :
  Forall (fun t => Jest.test_passes t
                   = negb (existsb Jest.targets_sentinel (Jest.calls t)))
         Jest.suite_part_000 /\
  List.length Jest.suite_part_000 = 12 /\
  List.length (filter Jest.test_passes Jest.suite_part_000) = 6.
Proof.
  split; [| split; reflexivity].
  repeat constructor.
Qed.

(** X12: the expectation that suite writes for the sentinels, a range
    ending in the separator, fails for every [from]. *)
Theorem trailing_separator_expectation_fails (from : string) :
  Jest.call_passes
    (Jest.Call from WORKING_TREE [Jest.toEqual [(from ++ "..")%string]]) = false /\
  Jest.call_passes
    (Jest.Call from STAGED_ONLY
       [Jest.toEqual [(from ++ "..")%string; "--cached"]]) = false.
Proof.
  assert (differs : (from =? from ++ "..")%string = false).
  { apply String.eqb_neq. now apply append_nonempty_neq. }
  unfold Jest.call_passes.
  cbn [Jest.call_from Jest.call_to Jest.expects forallb Jest.holds].
  rewrite (proj2 (renderDiffRequest_sentinel from)).
  rewrite (proj1 (renderDiffRequest_sentinel from)).
  simpl. now rewrite differs.
Qed.
